(** * Record access helper of axtro-server ([src/utils/prismaClient.ts])

    A shallow embedding of the database-access helper module: the singleton
    client life cycle, the table-name allow-list, the ten table-name-taking
    helpers, the transaction helper and the raw-query helper.

    JavaScript values are embedded as a JSON-like tree, [undefined] as [None],
    a synchronous [throw] as an explicit completion, and the module-level
    bindings ([prismaInstance], [prisma]) as explicit state.  The pagination
    numbers, which the helper tests and multiplies, are IEEE 754 binary64
    values ([float]), the numbers of JavaScript; the numbers inside payloads,
    which the helper only passes on, are the integer-valued ones ([Z]). *)

From Stdlib Require Import String Ascii List ZArith Bool Arith Lia.
From Stdlib Require Import PrimFloat.
Import ListNotations.
Open Scope string_scope.
Set Warnings "-register-all".

(** ** JavaScript values *)

Inductive JsValue : Type :=
| JsNull
| JsBool (b : bool)
| JsNum (n : Z)
| JsStr (s : string)
| JsArr (items : list JsValue)
| JsObj (fields : list (string * JsValue)).

(** [Record<string, any>]: the fields of an object, in insertion order. *)
Definition JsObject : Type := list (string * JsValue).

(** ToBoolean.  Objects and arrays are truthy, also when empty. *)
Definition truthy (v : JsValue) : bool :=
  match v with
  | JsNull => false
  | JsBool b => b
  | JsNum n => negb (n =? 0)%Z
  | JsStr s => negb (s =? "")
  | JsArr _ => true
  | JsObj _ => true
  end.

(** ToBoolean of a [number | undefined]: a number is falsy when it is
    [+0], [-0] or [NaN] (the one number not equal to itself). *)
Definition truthyNum (n : option float) : bool :=
  match n with
  | Some x => (negb (x =? 0) && (x =? x))%float
  | None => false
  end.

(** [x && { x }] under a spread: the property is present exactly when [x]
    is defined and truthy. *)
Definition spreadIf (x : option JsValue) : option JsValue :=
  match x with
  | Some v => if truthy v then Some v else None
  | None => None
  end.

(** [a || b] where [a] may be [undefined]. *)
Definition orElse (a : option JsValue) (b : JsValue) : JsValue :=
  match a with
  | Some v => if truthy v then v else b
  | None => b
  end.

Inductive JsError : Type :=
| Error (message : string)       (* [new Error(message)] *)
| TypeError (message : string)   (* raised by the runtime *)
| NotFoundError                  (* raised by the ORM: no record matched *)
| ConstraintError.               (* raised by the ORM: constraint violated *)

(** The completion of a synchronous expression. *)
Inductive Completion (A : Type) : Type :=
| Normal (a : A)
| Throw (e : JsError).
Arguments Normal {A} a.
Arguments Throw {A} e.

(** The state of a promise once awaited. *)
Inductive Settled (A : Type) : Type :=
| Fulfilled (v : A)
| Rejected (e : JsError).
Arguments Fulfilled {A} v.
Arguments Rejected {A} e.

(** ** Strings *)

Definition lowerAscii (c : ascii) : ascii :=
  let n := nat_of_ascii c in
  if ((65 <=? n) && (n <=? 90))%nat then ascii_of_nat (n + 32) else c.

Definition upperAscii (c : ascii) : ascii :=
  let n := nat_of_ascii c in
  if ((97 <=? n) && (n <=? 122))%nat then ascii_of_nat (n - 32) else c.

(** [String.prototype.toLowerCase]; the helper applies it to allow-listed
    names only, which are ASCII. *)
Fixpoint toLowerCase (s : string) : string :=
  match s with
  | EmptyString => EmptyString
  | String c rest => String (lowerAscii c) (toLowerCase rest)
  end.

(** Upper-cases the first character. *)
Definition capitalize (s : string) : string :=
  match s with
  | EmptyString => EmptyString
  | String c rest => String (upperAscii c) rest
  end.

(** [Array.prototype.join]. *)
Definition join (sep : string) (l : list string) : string := String.concat sep l.

(** [Array.prototype.includes] on strings. *)
Definition includes (l : list string) (x : string) : bool :=
  existsb (String.eqb x) l.

(** [needle] occurs in [hay]. *)
Definition occursIn (needle hay : string) : Prop :=
  exists pre post, hay = pre ++ needle ++ post.

(** ** The generated client *)

Definition ClientId : Type := nat.

(** The models of the schema, the members of [Prisma.ModelName]. *)
Inductive Model : Type := User | Folder | File | FileVersion | Share.

Definition modelName (m : Model) : string :=
  match m with
  | User => "User"
  | Folder => "Folder"
  | File => "File"
  | FileVersion => "FileVersion"
  | Share => "Share"
  end.

Definition schemaModels : list Model := [User; Folder; File; FileVersion; Share].

Definition Model_eqb (a b : Model) : bool := modelName a =? modelName b.

(** A per-model delegate of one client instance. *)
Record Delegate : Type := { d_client : ClientId; d_model : Model }.

(** The generated client is not part of the helper; its property table is
    the ORM's.  Prisma Client resolves a property key to a model delegate by
    upper-casing the first character of the key and looking the result up
    among the schema's models, so the delegates are [prisma.user],
    [prisma.folder], [prisma.file], [prisma.fileVersion] and [prisma.share];
    any other key that is not a client method reads as [undefined]. *)
Definition clientProperty (client : ClientId) (key : string) : option Delegate :=
  match find (fun m => modelName m =? capitalize key) schemaModels with
  | Some m => Some {| d_client := client; d_model := m |}
  | None => None
  end.

(** ** Requests reaching the client *)

Inductive DelegateOp : Type :=
| create (data : JsValue)
| createMany (data : list JsValue) (skipDuplicates : bool)
| findUnique (filter : JsValue) (select : option JsValue)
| findFirst (filter select orderBy : option JsValue)
| findMany (filter select orderBy : option JsValue) (skip take : option float)
| update (filter data : JsValue)
| upsert (filter updateData createData : JsValue)
| delete (filter : JsValue)
| count (filter : option JsValue)
| updateMany (filter data : JsValue)
| deleteMany (filter : JsValue).

Definition methodName (op : DelegateOp) : string :=
  match op with
  | create _ => "create"
  | createMany _ _ => "createMany"
  | findUnique _ _ => "findUnique"
  | findFirst _ _ _ => "findFirst"
  | findMany _ _ _ _ _ => "findMany"
  | update _ _ => "update"
  | upsert _ _ _ => "upsert"
  | delete _ => "delete"
  | count _ => "count"
  | updateMany _ _ => "updateMany"
  | deleteMany _ => "deleteMany"
  end.

(** The stored rows, each tagged with its table. *)
Definition Store : Type := list (Model * JsObject).

(** An asynchronous computation against the database: how it settles and
    the store it leaves. *)
Definition Async (T : Type) : Type := Store -> Settled T * Store.

(** What a helper does when called: it throws synchronously, or it returns
    the promise of one request made to a client. *)
Inductive Outcome : Type :=
| Throws (e : JsError)
| Calls (d : Delegate) (op : DelegateOp)
| CallsQueryRawUnsafe (client : ClientId) (query : string) (params : list JsValue).

(** The client a helper call reaches, if any. *)
Definition reached (o : Outcome) : option ClientId :=
  match o with
  | Throws _ => None
  | Calls d _ => Some (d_client d)
  | CallsQueryRawUnsafe c _ _ => Some c
  end.

(** The request of the transaction helper: [client.$transaction(callback)].
    The callback is embedded as the unit of work it runs against the handle
    it is given. *)
Record TransactionCall (T : Type) : Type := {
  tx_client : ClientId;
  tx_callback : Async T
}.
Arguments tx_client {T} _.
Arguments tx_callback {T} _.

(** [delegate.method(args)], where [delegate] may be [undefined]. *)
Definition callMethod (delegate : option Delegate) (op : DelegateOp) : Outcome :=
  match delegate with
  | Some d => Calls d op
  | None =>
      Throws (TypeError ("Cannot read properties of undefined (reading '"
                           ++ methodName op ++ "')"))
  end.

(** ** The singleton client and its life cycle *)

Inductive LogLevel : Type := LogInfo | LogQuery | LogWarn | LogError.
Inductive ErrorFormat : Type := Pretty | Colorless | Minimal.

(** [interface PrismaConfig]. *)
Record PrismaConfig : Type := {
  log : option (list LogLevel);
  errorFormat : option ErrorFormat
}.

(** The options a client was constructed with. *)
Record ClientOptions : Type := {
  opt_log : list LogLevel;
  opt_errorFormat : ErrorFormat
}.

(** The mutable state the module touches: its [prismaInstance] binding,
    every [new PrismaClient(...)] of the process so far (a client's identity
    is its position) and every [$disconnect()] call so far. *)
Record Process : Type := {
  prismaInstance : option ClientId;
  constructed : list ClientOptions;
  disconnectCalls : list ClientId
}.

Definition optionsOf (config : option PrismaConfig) : ClientOptions :=
  {| opt_log :=
       match config with
       | Some {| log := Some l |} => l
       | _ => [LogError; LogWarn]
       end;
     opt_errorFormat :=
       match config with
       | Some {| errorFormat := Some f |} => f
       | _ => Colorless
       end |}.

Definition getPrismaClient (config : option PrismaConfig) (st : Process)
  : ClientId * Process :=
  match prismaInstance st with
  | Some c => (c, st)
  | None =>
      let c := length (constructed st) in
      (c, {| prismaInstance := Some c;
             constructed := constructed st ++ [optionsOf config];
             disconnectCalls := disconnectCalls st |})
  end.

(** [disconnectPrismaClient] up to its [await]: when the singleton is set,
    [$disconnect()] is called on it and the function suspends. *)
Definition disconnect_begin (st : Process) : bool * Process :=
  match prismaInstance st with
  | Some c =>
      (true, {| prismaInstance := prismaInstance st;
                constructed := constructed st;
                disconnectCalls := disconnectCalls st ++ [c] |})
  | None => (false, st)
  end.

(** [disconnectPrismaClient] after its [await]. *)
Definition disconnect_resume (st : Process) : Process :=
  {| prismaInstance := None;
     constructed := constructed st;
     disconnectCalls := disconnectCalls st |}.

(** An awaited call of [disconnectPrismaClient]: nothing else runs between
    its two halves. *)
Definition disconnectPrismaClient (st : Process) : Process :=
  let '(suspended, st') := disconnect_begin st in
  if suspended then disconnect_resume st' else st'.

(** The shutdown handlers; the second component is the exit code when the
    handler ends the process. *)
Inductive Signal : Type := beforeExit | SIGINT | SIGTERM.

Definition onSignal (sig : Signal) (st : Process) : Process * option Z :=
  match sig with
  | beforeExit => (disconnectPrismaClient st, None)
  | SIGINT => (disconnectPrismaClient st, Some 0%Z)
  | SIGTERM => (disconnectPrismaClient st, Some 0%Z)
  end.

(** Module initialisation: [let prismaInstance = null], then
    [const prisma = getPrismaClient()].  The clients the process constructed
    and disconnected before the module was loaded are arbitrary. *)
Definition moduleInit (before : list ClientOptions) (calls : list ClientId)
  : ClientId * Process :=
  getPrismaClient None
    {| prismaInstance := None; constructed := before; disconnectCalls := calls |}.

(** ** The helpers *)

Definition VALID_MODELS : list string :=
  ["User"; "Folder"; "File"; "FileVersion"; "Share"].

Definition isValidModel (tableName : string) : bool :=
  includes VALID_MODELS tableName.

Definition invalidModelMessage (tableName : string) : string :=
  "Invalid model name: " ++ tableName ++ ". Valid models are: "
    ++ join ", " VALID_MODELS.

(** [interface FindManyOptions]. *)
Record FindManyOptions : Type := {
  o_where : option JsValue;
  o_select : option JsValue;
  o_orderBy : option JsValue;
  o_skip : option float;
  o_take : option float;
  o_page : option float;
  o_perPage : option float
}.

(** [options || {}]. *)
Definition noOptions : FindManyOptions :=
  {| o_where := None; o_select := None; o_orderBy := None;
     o_skip := None; o_take := None; o_page := None; o_perPage := None |}.

Definition optionsOrEmpty (options : option FindManyOptions) : FindManyOptions :=
  match options with
  | Some o => o
  | None => noOptions
  end.

(** [page && perPage ? (page - 1) * perPage : skip]. *)
Definition calculatedSkip (o : FindManyOptions) : option float :=
  match o_page o, o_perPage o with
  | Some page, Some perPage =>
      if truthyNum (Some page) && truthyNum (Some perPage)
      then Some ((page - 1) * perPage)%float
      else o_skip o
  | _, _ => o_skip o
  end.

(** [perPage || take]. *)
Definition calculatedTake (o : FindManyOptions) : option float :=
  if truthyNum (o_perPage o) then o_perPage o else o_take o.

Section Helpers.

(** The module-level [const prisma]. *)
Variable prisma : ClientId.

Definition getDelegate (tableName : string) : Completion (option Delegate) :=
  if negb (isValidModel tableName)
  then Throw (Error (invalidModelMessage tableName))
  else Normal (clientProperty prisma (toLowerCase tableName)).

(** Runs [k] on the delegate, or propagates the exception of
    [getDelegate]. *)
Definition withDelegate (tableName : string)
           (k : option Delegate -> Outcome) : Outcome :=
  match getDelegate tableName with
  | Throw e => Throws e
  | Normal delegate => k delegate
  end.

(** [skipDuplicates] is [None] when the caller omits the argument. *)
Definition insertRecord (tableName : string) (data : JsValue)
           (skipDuplicates : option bool) : Outcome :=
  let skipDuplicates := match skipDuplicates with Some b => b | None => true end in
  withDelegate tableName (fun delegate =>
    match data with
    | JsArr items => callMethod delegate (createMany items skipDuplicates)
    | _ => callMethod delegate (create data)
    end).

Definition findRecord (tableName : string) (query : JsValue)
           (select : option JsValue) : Outcome :=
  withDelegate tableName (fun delegate =>
    callMethod delegate (findUnique query (spreadIf select))).

Definition findManyRecords (tableName : string)
           (options : option FindManyOptions) : Outcome :=
  withDelegate tableName (fun delegate =>
    let o := optionsOrEmpty options in
    callMethod delegate
      (findMany (spreadIf (o_where o)) (spreadIf (o_select o))
                (spreadIf (o_orderBy o)) (calculatedSkip o) (calculatedTake o))).

Definition updateRecord (tableName : string) (query data : JsValue) : Outcome :=
  withDelegate tableName (fun delegate =>
    callMethod delegate (update query data)).

Definition upsertRecord (tableName : string) (query dataUpdate : JsValue)
           (dataCreate : option JsValue) : Outcome :=
  withDelegate tableName (fun delegate =>
    callMethod delegate (upsert query dataUpdate (orElse dataCreate dataUpdate))).

Definition deleteRecord (tableName : string) (query : JsValue) : Outcome :=
  withDelegate tableName (fun delegate =>
    callMethod delegate (delete query)).

Definition countRecords (tableName : string) (filter : option JsValue) : Outcome :=
  withDelegate tableName (fun delegate =>
    callMethod delegate (count (spreadIf filter))).

Definition findFirstRecord (tableName : string)
           (options : option FindManyOptions) : Outcome :=
  withDelegate tableName (fun delegate =>
    let o := optionsOrEmpty options in
    callMethod delegate
      (findFirst (spreadIf (o_where o)) (spreadIf (o_select o))
                 (spreadIf (o_orderBy o)))).

Definition updateManyRecords (tableName : string) (filter data : JsValue)
  : Outcome :=
  withDelegate tableName (fun delegate =>
    callMethod delegate (updateMany filter data)).

Definition deleteManyRecords (tableName : string) (filter : JsValue) : Outcome :=
  withDelegate tableName (fun delegate =>
    callMethod delegate (deleteMany filter)).

Definition executeTransaction {T : Type} (callback : Async T)
  : TransactionCall T :=
  {| tx_client := prisma; tx_callback := callback |}.

Definition executeRawQuery (query : string) (params : list JsValue) : Outcome :=
  CallsQueryRawUnsafe prisma query params.

End Helpers.

(** ** The ORM on an in-memory store

    The delegates and [$transaction] belong to the generated client, which
    the helper only calls.  They are modelled here from the contract the
    specification gives for each operation, on rows held in memory. *)

Fixpoint value_eqb (a b : JsValue) {struct a} : bool :=
  match a, b with
  | JsNull, JsNull => true
  | JsBool x, JsBool y => Bool.eqb x y
  | JsNum x, JsNum y => (x =? y)%Z
  | JsStr x, JsStr y => (x =? y)
  | JsArr xs, JsArr ys =>
      (fix all2 (xs ys : list JsValue) {struct xs} : bool :=
         match xs, ys with
         | [], [] => true
         | x :: xs', y :: ys' => value_eqb x y && all2 xs' ys'
         | _, _ => false
         end) xs ys
  | JsObj xs, JsObj ys =>
      (fix all2 (xs ys : list (string * JsValue)) {struct xs} : bool :=
         match xs, ys with
         | [], [] => true
         | (k, x) :: xs', (k', y) :: ys' =>
             (k =? k') && value_eqb x y && all2 xs' ys'
         | _, _ => false
         end) xs ys
  | _, _ => false
  end.

Fixpoint lookupField (k : string) (row : JsObject) : option JsValue :=
  match row with
  | [] => None
  | (k', v) :: rest => if k =? k' then Some v else lookupField k rest
  end.

Fixpoint setField (k : string) (v : JsValue) (row : JsObject) : JsObject :=
  match row with
  | [] => [(k, v)]
  | (k', v') :: rest =>
      if k =? k' then (k, v) :: rest else (k', v') :: setField k v rest
  end.

(** The fields of a payload; a payload that is not a record carries none. *)
Definition fieldsOf (v : JsValue) : JsObject :=
  match v with
  | JsObj fields => fields
  | _ => []
  end.

(** [row] with the fields of [data] written over it. *)
Definition assign (row : JsObject) (data : JsValue) : JsObject :=
  fold_left (fun r kv => setField (fst kv) (snd kv) r) (fieldsOf data) row.

(** A row matches a filter when it carries every field of the filter with
    an equal value. *)
Definition matches (filter : JsValue) (row : JsObject) : bool :=
  forallb (fun kv =>
             match lookupField (fst kv) row with
             | Some v => value_eqb (snd kv) v
             | None => false
             end) (fieldsOf filter).

Definition inTable (m : Model) (filter : JsValue) (entry : Model * JsObject)
  : bool :=
  Model_eqb m (fst entry) && matches filter (snd entry).

(** The number of rows of table [m] that match [filter]. *)
Definition countMatching (m : Model) (filter : JsValue) (db : Store) : nat :=
  length (List.filter (inTable m filter) db).

(** Rewrites the first row of table [m] that matches [filter]. *)
Fixpoint updateFirst (m : Model) (filter data : JsValue) (db : Store)
  : option (JsObject * Store) :=
  match db with
  | [] => None
  | entry :: rest =>
      if inTable m filter entry
      then let row := assign (snd entry) data in Some (row, (m, row) :: rest)
      else match updateFirst m filter data rest with
           | Some (row, rest') => Some (row, entry :: rest')
           | None => None
           end
  end.

(** Modelled from the spec: the delegate's single-create operation, absent
    from the sources; "insert: created record".  The row stored is the
    payload as it is given: generated and default columns and the
    constraints of the database depend on the schema, which the sources do
    not contain, and are not modelled; it only serves as a step that
    succeeds inside a unit of work. *)
Definition orm_create (m : Model) (data : JsValue) : Async JsValue :=
  fun db => (Fulfilled (JsObj (fieldsOf data)), (db ++ [(m, fieldsOf data)])%list).

(** Modelled from the spec: the delegate's update operation, absent from the
    sources; "update-one: updated record; fails if no record matches the
    filter", with the not-found error of the error taxonomy. *)
Definition orm_update (m : Model) (filter data : JsValue) : Async JsValue :=
  fun db =>
    match updateFirst m filter data db with
    | Some (row, db') => (Fulfilled (JsObj row), db')
    | None => (Rejected NotFoundError, db)
    end.

(** Modelled from the spec: the delegate's upsert operation, absent from the
    sources; "upsert: resulting record; create path used only when filter
    matches nothing". *)
Definition orm_upsert (m : Model) (filter updateData createData : JsValue)
  : Async JsValue :=
  fun db =>
    match updateFirst m filter updateData db with
    | Some (row, db') => (Fulfilled (JsObj row), db')
    | None => orm_create m createData db
    end.

(** Modelled from the spec: the client's [$transaction], absent from the
    sources; "all contained operations commit or roll back atomically; any
    failure inside aborts the whole unit" and "surfaces that operation's
    error to the caller".  The callback is the unit of work run against the
    transaction's handle. *)
Definition orm_transaction {T : Type} (callback : Async T) : Async T :=
  fun db =>
    match callback db with
    | (Fulfilled v, db') => (Fulfilled v, db')
    | (Rejected e, _) => (Rejected e, db)
    end.

(** Two steps of a unit of work in sequence, as in
    [const a = await first; return next(a)]: a rejected [await] ends the
    unit with that error. *)
Definition andThen {A B : Type} (first : Async A) (next : A -> Async B)
  : Async B :=
  fun db =>
    match first db with
    | (Fulfilled a, db') => next a db'
    | (Rejected e, db') => (Rejected e, db')
    end.

(** The operations of a delegate that are modelled. *)
Definition orm_call (m : Model) (op : DelegateOp) : option (Async JsValue) :=
  match op with
  | create data => Some (orm_create m data)
  | update filter data => Some (orm_update m filter data)
  | upsert filter updateData createData =>
      Some (orm_upsert m filter updateData createData)
  | _ => None
  end.

(** Awaiting what a table-name-taking helper returned.  A helper that threw
    makes the awaiting caller fail with that exception, the store
    untouched. *)
Definition await (o : Outcome) : option (Async JsValue) :=
  match o with
  | Throws e => Some (fun db => (Rejected e, db))
  | Calls d op => orm_call (d_model d) op
  | CallsQueryRawUnsafe _ _ _ => None
  end.

(** Awaiting what the transaction helper returned. *)
Definition awaitTransaction {T : Type} (call : TransactionCall T) : Async T :=
  orm_transaction (tx_callback call).

(** ** Notions used in the statements *)

(** The options with their pagination replaced by a raw [skip]/[take]. *)
Definition withSkipTake (o : FindManyOptions) (skip take : option float)
  : FindManyOptions :=
  {| o_where := o_where o; o_select := o_select o; o_orderBy := o_orderBy o;
     o_skip := skip; o_take := take; o_page := None; o_perPage := None |}.

(** The allow-listed names whose lower-cased form is a delegate of the
    client. *)
Definition resolvedModels : list Model := [User; Folder; File; Share].

(** The outcomes of the helper calls of a module whose [prisma] binding is
    [prisma]. *)
Inductive helperOutcome (prisma : ClientId) : Outcome -> Prop :=
| by_insertRecord t data skipDuplicates :
    helperOutcome prisma (insertRecord prisma t data skipDuplicates)
| by_findRecord t query select :
    helperOutcome prisma (findRecord prisma t query select)
| by_findFirstRecord t options :
    helperOutcome prisma (findFirstRecord prisma t options)
| by_findManyRecords t options :
    helperOutcome prisma (findManyRecords prisma t options)
| by_countRecords t filter :
    helperOutcome prisma (countRecords prisma t filter)
| by_updateRecord t query data :
    helperOutcome prisma (updateRecord prisma t query data)
| by_updateManyRecords t filter data :
    helperOutcome prisma (updateManyRecords prisma t filter data)
| by_upsertRecord t query dataUpdate dataCreate :
    helperOutcome prisma (upsertRecord prisma t query dataUpdate dataCreate)
| by_deleteRecord t query :
    helperOutcome prisma (deleteRecord prisma t query)
| by_deleteManyRecords t filter :
    helperOutcome prisma (deleteManyRecords prisma t filter)
| by_executeRawQuery query params :
    helperOutcome prisma (executeRawQuery prisma query params).

(** The helper reaches no client, or the client [c]. *)
Definition dispatchesOn (c : ClientId) (o : Outcome) : Prop :=
  reached o = None \/ reached o = Some c.

(** The outcomes of the table-name-taking helpers called with the table
    name [t]. *)
Inductive tableHelperOutcome (prisma : ClientId) (t : string)
  : Outcome -> Prop :=
| on_insertRecord data skipDuplicates :
    tableHelperOutcome prisma t (insertRecord prisma t data skipDuplicates)
| on_findRecord query select :
    tableHelperOutcome prisma t (findRecord prisma t query select)
| on_findFirstRecord options :
    tableHelperOutcome prisma t (findFirstRecord prisma t options)
| on_findManyRecords options :
    tableHelperOutcome prisma t (findManyRecords prisma t options)
| on_countRecords filter :
    tableHelperOutcome prisma t (countRecords prisma t filter)
| on_updateRecord query data :
    tableHelperOutcome prisma t (updateRecord prisma t query data)
| on_updateManyRecords filter data :
    tableHelperOutcome prisma t (updateManyRecords prisma t filter data)
| on_upsertRecord query dataUpdate dataCreate :
    tableHelperOutcome prisma t
      (upsertRecord prisma t query dataUpdate dataCreate)
| on_deleteRecord query :
    tableHelperOutcome prisma t (deleteRecord prisma t query)
| on_deleteManyRecords filter :
    tableHelperOutcome prisma t (deleteManyRecords prisma t filter).

(** The [TypeError] of a method call on [undefined]. *)
Definition undefinedDelegateError (op : DelegateOp) : JsError :=
  TypeError ("Cannot read properties of undefined (reading '"
               ++ methodName op ++ "')").

(** The options with their falsy [where], [select] and [orderBy] removed. *)
Definition dropFalsy (o : FindManyOptions) : FindManyOptions :=
  {| o_where := spreadIf (o_where o); o_select := spreadIf (o_select o);
     o_orderBy := spreadIf (o_orderBy o);
     o_skip := o_skip o; o_take := o_take o;
     o_page := o_page o; o_perPage := o_perPage o |}.

(** A call of one of the two life-cycle functions, awaited. *)
Inductive LifecycleCall : Type :=
| GetClient (config : option PrismaConfig)
| Disconnect.

Definition lifecycleStep (st : Process) (call : LifecycleCall) : Process :=
  match call with
  | GetClient config => snd (getPrismaClient config st)
  | Disconnect => disconnectPrismaClient st
  end.

Definition lifecycleRun (calls : list LifecycleCall) (st : Process) : Process :=
  fold_left lifecycleStep calls st.

(** The disconnect log names constructed clients only, each once, and the
    singleton, when set, is a constructed client that is not in the log. *)
Definition consistent (st : Process) : Prop :=
  NoDup (disconnectCalls st) /\
  (forall c, In c (disconnectCalls st) -> c < length (constructed st)) /\
  (forall c, prismaInstance st = Some c ->
             c < length (constructed st) /\ ~ In c (disconnectCalls st)).

(** [k] calls of [disconnectPrismaClient] entered one after the other, none
    of them resumed from its [await] yet. *)
Definition beginAll (k : nat) (st : Process) : Process :=
  Nat.iter k (fun s => snd (disconnect_begin s)) st.

(** The [k] suspended calls resumed. *)
Definition resumeAll (k : nat) (st : Process) : Process :=
  Nat.iter k disconnect_resume st.

(** ** Sample values *)

Definition keyOne : JsValue := JsObj [("id", JsNum 1)].
Definition nameAnn : JsValue := JsObj [("name", JsStr "Ann")].

Definition nameJohn : JsValue := JsObj [("name", JsStr "John Doe")].

(** A unit of work whose first operation succeeds and whose second fails. *)
Definition createThenUpdateMissing : Async JsValue :=
  andThen (orm_create User nameAnn) (fun _ => orm_update User keyOne nameJohn).

(** Options with [page = 0]. *)
Definition pageZero : FindManyOptions :=
  {| o_where := None; o_select := None; o_orderBy := None;
     o_skip := Some 5%float; o_take := None;
     o_page := Some 0%float; o_perPage := Some 10%float |}.

(** * Properties *)

(** ** Strings and the allow-list *)

Lemma append_assoc (a b c : string) : (a ++ b) ++ c = a ++ (b ++ c).
Proof.
  induction a as [|x a IH]; simpl; [reflexivity | now rewrite IH].
Qed.

Lemma occursIn_intro (pre needle post hay : string) :
  hay = pre ++ needle ++ post -> occursIn needle hay.
Proof. intros H. exists pre, post. exact H. Qed.

Lemma isValidModel_In (tableName : string) :
  isValidModel tableName = true <-> In tableName VALID_MODELS.
Proof.
  unfold isValidModel, includes. rewrite existsb_exists. split.
  - intros [x [Hin Heq]]. apply String.eqb_eq in Heq. now subst.
  - intros Hin. exists tableName. split; [exact Hin | apply String.eqb_refl].
Qed.

Lemma isValidModel_not_In (tableName : string) :
  ~ In tableName VALID_MODELS -> isValidModel tableName = false.
Proof.
  intros Hnot. destruct (isValidModel tableName) eqn:E; [|reflexivity].
  apply isValidModel_In in E. contradiction.
Qed.

Lemma getDelegate_invalid (prisma : ClientId) (tableName : string) :
  ~ In tableName VALID_MODELS ->
  getDelegate prisma tableName = Throw (Error (invalidModelMessage tableName)).
Proof.
  intros Hnot. unfold getDelegate. now rewrite (isValidModel_not_In _ Hnot).
Qed.

Lemma withDelegate_invalid (prisma : ClientId) (tableName : string)
      (k : option Delegate -> Outcome) :
  ~ In tableName VALID_MODELS ->
  withDelegate prisma tableName k = Throws (Error (invalidModelMessage tableName)).
Proof.
  intros Hnot. unfold withDelegate. now rewrite (getDelegate_invalid _ _ Hnot).
Qed.

(** The delegate lookup on each allow-listed name. *)
Lemma getDelegate_valid (prisma : ClientId) (tableName : string) :
  In tableName VALID_MODELS ->
  getDelegate prisma tableName
  = Normal (clientProperty prisma (toLowerCase tableName)).
Proof.
  intros Hin. unfold getDelegate.
  apply isValidModel_In in Hin. now rewrite Hin.
Qed.

Lemma invalidModelMessage_names_input (tableName : string) :
  occursIn tableName (invalidModelMessage tableName).
Proof.
  eapply occursIn_intro. unfold invalidModelMessage. reflexivity.
Qed.

Lemma invalidModelMessage_lists_models (tableName m : string) :
  In m VALID_MODELS -> occursIn m (invalidModelMessage tableName).
Proof.
  intros Hin. unfold invalidModelMessage.
  set (head := "Invalid model name: " ++ tableName ++ ". Valid models are: ").
  assert (Hmsg : "Invalid model name: " ++ tableName ++ ". Valid models are: "
                   ++ join ", " VALID_MODELS
                 = head ++ join ", " VALID_MODELS).
  { unfold head. now rewrite !append_assoc. }
  rewrite Hmsg. clear Hmsg.
  simpl in Hin.
  destruct Hin as [<-|[<-|[<-|[<-|[<-|[]]]]]].
  - apply (occursIn_intro head _ ", Folder, File, FileVersion, Share").
    reflexivity.
  - apply (occursIn_intro (head ++ "User, ") _ ", File, FileVersion, Share").
    now rewrite append_assoc.
  - apply (occursIn_intro (head ++ "User, Folder, ") _ ", FileVersion, Share").
    now rewrite append_assoc.
  - apply (occursIn_intro (head ++ "User, Folder, File, ") _ ", Share").
    now rewrite append_assoc.
  - apply (occursIn_intro (head ++ "User, Folder, File, FileVersion, ") _ "").
    now rewrite append_assoc.
Qed.

(** ** Table-name validation *)

(** C1. A table name outside the allow-list makes each of the ten
    table-name-taking helpers throw synchronously, no request reaching the
    client, the [Error] whose message names the input and lists the valid
    models; a name of the allow-list passes the validation. *)
Theorem invalid_table_name_rejected (prisma : ClientId) (tableName : string) :
  (~ In tableName VALID_MODELS ->
   let failure := Throws (Error (invalidModelMessage tableName)) in
   (forall data skipDuplicates,
       insertRecord prisma tableName data skipDuplicates = failure) /\
   (forall query select, findRecord prisma tableName query select = failure) /\
   (forall options, findFirstRecord prisma tableName options = failure) /\
   (forall options, findManyRecords prisma tableName options = failure) /\
   (forall query data, updateRecord prisma tableName query data = failure) /\
   (forall query dataUpdate dataCreate,
       upsertRecord prisma tableName query dataUpdate dataCreate = failure) /\
   (forall query, deleteRecord prisma tableName query = failure) /\
   (forall filter, countRecords prisma tableName filter = failure) /\
   (forall filter data,
       updateManyRecords prisma tableName filter data = failure) /\
   (forall filter, deleteManyRecords prisma tableName filter = failure) /\
   reached failure = None /\
   occursIn tableName (invalidModelMessage tableName) /\
   (forall m, In m VALID_MODELS -> occursIn m (invalidModelMessage tableName)))
  /\
  (In tableName VALID_MODELS ->
   isValidModel tableName = true /\
   exists delegate, getDelegate prisma tableName = Normal delegate).
Proof.
  split.
  - intros Hnot failure.
    repeat match goal with
           | |- _ /\ _ => split
           end;
      try (intros; now apply withDelegate_invalid).
    + reflexivity.
    + apply invalidModelMessage_names_input.
    + intros m Hin. now apply invalidModelMessage_lists_models.
  - intros Hin. split.
    + now apply isValidModel_In.
    + eexists. now apply getDelegate_valid.
Qed.

Lemma invalid_table_name_rejected_witness :
  (~ In "Users" VALID_MODELS /\
   findManyRecords 0 "Users" None
   = Throws (Error "Invalid model name: Users. Valid models are: User, Folder, File, FileVersion, Share"))
  /\ (In "Share" VALID_MODELS /\ isValidModel "Share" = true).
Proof.
  assert (Hnot : ~ In "Users" VALID_MODELS).
  { simpl. intros [H|[H|[H|[H|[H|[]]]]]]; discriminate H. }
  assert (Hin : In "Share" VALID_MODELS).
  { simpl. tauto. }
  split.
  - split; [exact Hnot|].
    exact (proj1 (proj2 (proj2 (proj2
             (proj1 (invalid_table_name_rejected 0 "Users") Hnot)))) None).
  - split; [exact Hin|].
    exact (proj1 (proj2 (invalid_table_name_rejected 0 "Share") Hin)).
Defined.

(** ** Pagination of find-many *)

(** The request find-many makes once the delegate is resolved. *)
Lemma findManyRecords_request (prisma : ClientId) (tableName : string)
      (o : FindManyOptions) :
  findManyRecords prisma tableName (Some o)
  = withDelegate prisma tableName (fun delegate =>
      callMethod delegate
        (findMany (spreadIf (o_where o)) (spreadIf (o_select o))
                  (spreadIf (o_orderBy o)) (calculatedSkip o) (calculatedTake o))).
Proof. reflexivity. Qed.

Lemma paged_skip_take (o : FindManyOptions) (page perPage : float) :
  o_page o = Some page -> o_perPage o = Some perPage ->
  truthyNum (Some page) = true -> truthyNum (Some perPage) = true ->
  calculatedSkip o = Some ((page - 1) * perPage)%float /\
  calculatedTake o = Some perPage.
Proof.
  intros Hp Hpp Hpt Hppt. unfold calculatedSkip, calculatedTake.
  rewrite Hp, Hpp, Hpt, Hppt. split; reflexivity.
Qed.

(** With [page = 0] the raw [skip] is forwarded although both [page] and
    [perPage] are supplied. *)
Lemma page_zero_forwards_raw_skip :
  findManyRecords 0 "User" (Some pageZero)
  = Calls {| d_client := 0; d_model := User |}
          (findMany None None None (Some 5%float) (Some 10%float))
  /\ ~ (forall (o : FindManyOptions) (page perPage : float),
           o_page o = Some page -> o_perPage o = Some perPage ->
           calculatedSkip o = Some ((page - 1) * perPage)%float /\
           calculatedTake o = Some perPage).
Proof.
  split; [reflexivity|].
  intros H.
  destruct (H pageZero 0%float 10%float eq_refl eq_refl) as [Hskip _].
  apply (f_equal (fun skip => match skip with
                              | Some x => (x <? 0)%float
                              | None => false
                              end)) in Hskip.
  vm_compute in Hskip. discriminate Hskip.
Qed.

(** Page 2 of pages of 10 is the rows 10 to 19. *)
Example page_two_of_ten :
  findManyRecords 0 "Folder"
    (Some {| o_where := None; o_select := None; o_orderBy := None;
             o_skip := None; o_take := None;
             o_page := Some 2%float; o_perPage := Some 10%float |})
  = Calls {| d_client := 0; d_model := Folder |}
          (findMany None None None (Some 10%float) (Some 10%float)).
Proof. reflexivity. Qed.

(** The product is the rounded one of the source: past 2^53 not every
    integer is a number. *)
Example page_two_to_the_53 :
  calculatedSkip {| o_where := None; o_select := None; o_orderBy := None;
                    o_skip := None; o_take := None;
                    o_page := Some 9007199254740992%float;
                    o_perPage := Some 3%float |}
  = Some 27021597764222972%float.
Proof. reflexivity. Qed.

(** [NaN] is supplied and is not zero, and is falsy all the same. *)
Example page_nan_forwards_raw_skip :
  calculatedSkip {| o_where := None; o_select := None; o_orderBy := None;
                    o_skip := Some 5%float; o_take := None;
                    o_page := Some nan; o_perPage := Some 10%float |}
  = Some 5%float.
Proof. reflexivity. Qed.

(** C2 (amended). When [page] and [perPage] are both supplied and truthy,
    that is neither zero nor [NaN], find-many forwards
    [skip = (page - 1) * perPage], the product being the one the source
    computes on its numbers, and [take = perPage], whatever raw
    [skip]/[take] accompany them, and so makes the request of the same call
    with that raw [skip]/[take]: with page 2 and 10 per page, that of
    [skip = 10], [take = 10].  When none of [skip], [take], [page],
    [perPage] is supplied, neither [skip] nor [take] is forwarded. *)
Theorem findMany_pagination (prisma : ClientId) (tableName : string)
        (o : FindManyOptions) :
  (forall page perPage,
      o_page o = Some page -> o_perPage o = Some perPage ->
      truthyNum (Some page) = true -> truthyNum (Some perPage) = true ->
      findManyRecords prisma tableName (Some o)
      = withDelegate prisma tableName (fun delegate =>
          callMethod delegate
            (findMany (spreadIf (o_where o)) (spreadIf (o_select o))
                      (spreadIf (o_orderBy o))
                      (Some ((page - 1) * perPage)%float) (Some perPage)))
      /\
      findManyRecords prisma tableName (Some o)
      = findManyRecords prisma tableName
          (Some (withSkipTake o (Some ((page - 1) * perPage)%float)
                              (Some perPage))))
  /\
  (o_page o = Some 2%float -> o_perPage o = Some 10%float ->
   findManyRecords prisma tableName (Some o)
   = findManyRecords prisma tableName
       (Some (withSkipTake o (Some 10%float) (Some 10%float))))
  /\
  (o_skip o = None -> o_take o = None ->
   o_page o = None -> o_perPage o = None ->
   findManyRecords prisma tableName (Some o)
   = withDelegate prisma tableName (fun delegate =>
       callMethod delegate
         (findMany (spreadIf (o_where o)) (spreadIf (o_select o))
                   (spreadIf (o_orderBy o)) None None)))
  /\
  findManyRecords prisma tableName None
  = withDelegate prisma tableName (fun delegate =>
      callMethod delegate (findMany None None None None None)).
Proof.
  assert (Hpaged : forall page perPage,
             o_page o = Some page -> o_perPage o = Some perPage ->
             truthyNum (Some page) = true -> truthyNum (Some perPage) = true ->
             findManyRecords prisma tableName (Some o)
             = findManyRecords prisma tableName
                 (Some (withSkipTake o (Some ((page - 1) * perPage)%float)
                                     (Some perPage)))).
  { intros page perPage Hp Hpp Hpt Hppt.
    destruct (paged_skip_take o page perPage Hp Hpp Hpt Hppt) as [Hs Ht].
    rewrite !findManyRecords_request. now rewrite Hs, Ht. }
  split; [|split; [|split]].
  - intros page perPage Hp Hpp Hpt Hppt. split.
    + destruct (paged_skip_take o page perPage Hp Hpp Hpt Hppt) as [Hs Ht].
      rewrite findManyRecords_request. now rewrite Hs, Ht.
    + now apply Hpaged.
  - intros Hp Hpp.
    exact (Hpaged 2%float 10%float Hp Hpp eq_refl eq_refl).
  - intros Hs Ht Hp Hpp. rewrite findManyRecords_request.
    unfold calculatedSkip, calculatedTake. rewrite Hs, Ht, Hp, Hpp.
    reflexivity.
  - reflexivity.
Qed.

Lemma findMany_pagination_witness :
  let paged := {| o_where := Some (JsObj [("isDeleted", JsBool false)]);
                  o_select := None;
                  o_orderBy := Some (JsObj [("createdAt", JsStr "desc")]);
                  o_skip := Some 3%float; o_take := Some 4%float;
                  o_page := Some 2%float; o_perPage := Some 10%float |} in
  let bare := {| o_where := Some (JsObj [("isDeleted", JsBool false)]);
                 o_select := None; o_orderBy := None;
                 o_skip := None; o_take := None;
                 o_page := None; o_perPage := None |} in
  findManyRecords 0 "File" (Some paged)
  = findManyRecords 0 "File"
      (Some (withSkipTake paged (Some 10%float) (Some 10%float)))
  /\
  findManyRecords 0 "File" (Some paged)
  = findManyRecords 0 "File"
      (Some (withSkipTake paged (Some ((2 - 1) * 10)%float) (Some 10%float)))
  /\
  findManyRecords 0 "File" (Some bare)
  = Calls {| d_client := 0; d_model := File |}
          (findMany (Some (JsObj [("isDeleted", JsBool false)])) None None
                    None None).
Proof.
  intros paged bare. split; [|split].
  - exact (proj1 (proj2 (findMany_pagination 0 "File" paged))
                 eq_refl eq_refl).
  - exact (proj2 (proj1 (findMany_pagination 0 "File" paged)
                        2%float 10%float eq_refl eq_refl eq_refl eq_refl)).
  - exact (proj1 (proj2 (proj2 (findMany_pagination 0 "File" bare)))
                 eq_refl eq_refl eq_refl eq_refl).
Defined.

(** ** Delegate lookup *)

Lemma resolvedModels_valid (m : Model) :
  In m resolvedModels -> In (modelName m) VALID_MODELS.
Proof.
  simpl. intros [<-|[<-|[<-|[<-|[]]]]]; simpl; tauto.
Qed.

Lemma getDelegate_resolved (prisma : ClientId) (m : Model) :
  In m resolvedModels ->
  getDelegate prisma (modelName m)
  = Normal (Some {| d_client := prisma; d_model := m |}).
Proof.
  simpl. intros [<-|[<-|[<-|[<-|[]]]]]; reflexivity.
Qed.

Lemma withDelegate_resolved (prisma : ClientId) (m : Model)
      (k : option Delegate -> Outcome) :
  In m resolvedModels ->
  withDelegate prisma (modelName m) k
  = k (Some {| d_client := prisma; d_model := m |}).
Proof.
  intros Hin. unfold withDelegate. now rewrite getDelegate_resolved.
Qed.

(** [prisma["fileversion"]] is [undefined]: the delegate of the model is
    [prisma.fileVersion]. *)
Lemma getDelegate_FileVersion (prisma : ClientId) :
  isValidModel "FileVersion" = true /\
  toLowerCase "FileVersion" = "fileversion" /\
  clientProperty prisma "fileVersion"
  = Some {| d_client := prisma; d_model := FileVersion |} /\
  getDelegate prisma "FileVersion" = Normal None.
Proof. repeat split. Qed.

Lemma withDelegate_FileVersion (prisma : ClientId)
      (k : option Delegate -> Outcome) :
  withDelegate prisma "FileVersion" k = k None.
Proof. reflexivity. Qed.

(** ** Insert *)

(** On the four models whose delegate the lookup finds, insert creates one
    record from a single record and batch-inserts a list, the
    skip-duplicates flag defaulting to [true]. *)
Lemma insertRecord_resolved (prisma : ClientId) (m : Model) :
  In m resolvedModels ->
  let delegate := {| d_client := prisma; d_model := m |} in
  (forall fields skipDuplicates,
      insertRecord prisma (modelName m) (JsObj fields) skipDuplicates
      = Calls delegate (create (JsObj fields))) /\
  (forall records,
      insertRecord prisma (modelName m) (JsArr records) None
      = Calls delegate (createMany records true)) /\
  (forall records flag,
      insertRecord prisma (modelName m) (JsArr records) (Some flag)
      = Calls delegate (createMany records flag)).
Proof.
  intros Hin delegate. unfold insertRecord.
  repeat split; intros; now rewrite withDelegate_resolved.
Qed.

(** C3. On the allow-listed name [FileVersion] insert reaches no delegate:
    the lookup under the lower-cased name gives [undefined] and the call of
    [create], or of [createMany] for a list, raises a [TypeError]. *)
Theorem insertRecord_FileVersion (prisma : ClientId) :
  In "FileVersion" VALID_MODELS /\
  (forall fields skipDuplicates,
      insertRecord prisma "FileVersion" (JsObj fields) skipDuplicates
      = Throws (TypeError
                  "Cannot read properties of undefined (reading 'create')")) /\
  (forall records skipDuplicates,
      insertRecord prisma "FileVersion" (JsArr records) skipDuplicates
      = Throws (TypeError
                  "Cannot read properties of undefined (reading 'createMany')")) /\
  (forall data skipDuplicates,
      reached (insertRecord prisma "FileVersion" data skipDuplicates) = None).
Proof.
  split; [simpl; tauto|].
  split; [reflexivity|]. split; [reflexivity|].
  intros data skipDuplicates. destruct data; reflexivity.
Qed.

(** ** Find-first *)

(** C9. Find-first forwards the filter, the projection and the ordering
    only: two option objects that agree on [where], [select] and [orderBy]
    lead to the same request, whatever their [skip], [take], [page] and
    [perPage]. *)
Theorem findFirst_ignores_pagination (prisma : ClientId) (tableName : string)
        (o1 o2 : FindManyOptions) :
  o_where o1 = o_where o2 ->
  o_select o1 = o_select o2 ->
  o_orderBy o1 = o_orderBy o2 ->
  findFirstRecord prisma tableName (Some o1)
  = findFirstRecord prisma tableName (Some o2)
  /\
  findFirstRecord prisma tableName (Some o1)
  = withDelegate prisma tableName (fun delegate =>
      callMethod delegate
        (findFirst (spreadIf (o_where o1)) (spreadIf (o_select o1))
                   (spreadIf (o_orderBy o1)))).
Proof.
  intros Hw Hs Ho. unfold findFirstRecord. simpl.
  rewrite Hw, Hs, Ho. split; reflexivity.
Qed.

Lemma findFirst_ignores_pagination_witness :
  findFirstRecord 0 "Share"
    (Some {| o_where := Some (JsObj [("fileId", JsNum 4)]);
             o_select := None;
             o_orderBy := Some (JsObj [("createdAt", JsStr "asc")]);
             o_skip := Some 20%float; o_take := Some 5%float;
             o_page := None; o_perPage := None |})
  = findFirstRecord 0 "Share"
      (Some {| o_where := Some (JsObj [("fileId", JsNum 4)]);
               o_select := None;
               o_orderBy := Some (JsObj [("createdAt", JsStr "asc")]);
               o_skip := None; o_take := None;
               o_page := Some 3%float; o_perPage := Some 50%float |}).
Proof.
  exact (proj1 (findFirst_ignores_pagination 0 "Share" _ _
                  eq_refl eq_refl eq_refl)).
Defined.

(** ** The store *)

Open Scope list_scope.

Lemma Model_eqb_refl (m : Model) : Model_eqb m m = true.
Proof. apply String.eqb_refl. Qed.

Lemma Model_eqb_eq (a b : Model) : Model_eqb a b = true -> a = b.
Proof. destruct a, b; simpl; intros H; try reflexivity; discriminate H. Qed.

Lemma countMatching_cons (m : Model) (filter : JsValue)
      (entry : Model * JsObject) (db : Store) :
  countMatching m filter (entry :: db)
  = (if inTable m filter entry then 1 else 0) + countMatching m filter db.
Proof.
  unfold countMatching. simpl. now destruct (inTable m filter entry).
Qed.

Lemma updateFirst_no_match (m : Model) (filter data : JsValue) (db : Store) :
  countMatching m filter db = 0 -> updateFirst m filter data db = None.
Proof.
  induction db as [|entry db IH]; intros Hzero.
  - reflexivity.
  - rewrite countMatching_cons in Hzero. simpl.
    destruct (inTable m filter entry); [discriminate Hzero|].
    now rewrite IH.
Qed.

Lemma updateFirst_match (m : Model) (filter data : JsValue) (db : Store) :
  countMatching m filter db <> 0 ->
  exists old row db',
    updateFirst m filter data db = Some (row, db') /\
    In (m, old) db /\ matches filter old = true /\
    row = assign old data /\ In (m, row) db' /\ length db' = length db.
Proof.
  induction db as [|entry db IH]; intros Hsome.
  - now contradiction Hsome.
  - rewrite countMatching_cons in Hsome. simpl.
    destruct (inTable m filter entry) eqn:E.
    + destruct entry as [m' old]. unfold inTable in E. simpl in E.
      apply andb_prop in E. destruct E as [Em Ef].
      apply Model_eqb_eq in Em. subst m'.
      exists old, (assign old data), ((m, assign old data) :: db).
      simpl. repeat split; auto.
    + destruct (IH Hsome) as (old & row & db' & Hup & Hin & Hm & Hrow & Hin' & Hlen).
      rewrite Hup. exists old, row, (entry :: db').
      simpl. repeat split; auto.
Qed.

(** ** Update-one *)

(** On the four models whose delegate the lookup finds, update-one asks the
    delegate for the update: a filter matching no row fails with the
    not-found error and leaves the store as it was, a filter matching a row
    returns that row with the fields written over it. *)
Lemma updateRecord_resolved (prisma : ClientId) (m : Model)
      (query data : JsValue) (db : Store) :
  In m resolvedModels ->
  updateRecord prisma (modelName m) query data
  = Calls {| d_client := prisma; d_model := m |} (update query data) /\
  await (updateRecord prisma (modelName m) query data)
  = Some (orm_update m query data) /\
  (countMatching m query db = 0 ->
   orm_update m query data db = (Rejected NotFoundError, db)) /\
  (countMatching m query db <> 0 ->
   exists old db',
     orm_update m query data db = (Fulfilled (JsObj (assign old data)), db') /\
     In (m, old) db /\ matches query old = true /\
     In (m, assign old data) db').
Proof.
  intros Hin.
  assert (Hcall : updateRecord prisma (modelName m) query data
                  = Calls {| d_client := prisma; d_model := m |}
                          (update query data)).
  { unfold updateRecord. now rewrite withDelegate_resolved. }
  split; [exact Hcall|]. split; [now rewrite Hcall|]. split.
  - intros Hzero. unfold orm_update.
    now rewrite (updateFirst_no_match _ _ _ _ Hzero).
  - intros Hsome.
    destruct (updateFirst_match m query data db Hsome)
      as (old & row & db' & Hup & Hold & Hm & Hrow & Hnew & _).
    exists old, db'. unfold orm_update. rewrite Hup. subst row.
    repeat split; assumption.
Qed.

(** C8. On the allow-listed name [FileVersion] update-one reaches no
    delegate: whether or not a row matches the filter, the call raises a
    [TypeError], which is not the not-found error, no updated record is
    returned and the store is left as it was. *)
Theorem updateRecord_FileVersion (prisma : ClientId) (query data : JsValue)
        (db : Store) :
  In "FileVersion" VALID_MODELS /\
  updateRecord prisma "FileVersion" query data
  = Throws (TypeError "Cannot read properties of undefined (reading 'update')")
  /\
  exists run,
    await (updateRecord prisma "FileVersion" query data) = Some run /\
    run db
    = (Rejected
         (TypeError "Cannot read properties of undefined (reading 'update')"),
       db) /\
    fst (run db) <> Rejected NotFoundError.
Proof.
  split; [simpl; tauto|]. split; [reflexivity|].
  eexists. split; [reflexivity|]. split; [reflexivity|].
  simpl. discriminate.
Qed.

(** ** Upsert *)

(** On the four models whose delegate the lookup finds, upsert passes the
    update-fields as the update payload and, as the create payload, the
    create-fields when they are supplied as a record and the update-fields
    when they are omitted. *)
Lemma upsertRecord_resolved (prisma : ClientId) (m : Model)
      (query dataUpdate : JsValue) :
  In m resolvedModels ->
  let delegate := {| d_client := prisma; d_model := m |} in
  upsertRecord prisma (modelName m) query dataUpdate None
  = Calls delegate (upsert query dataUpdate dataUpdate) /\
  (forall createFields,
      upsertRecord prisma (modelName m) query dataUpdate
                   (Some (JsObj createFields))
      = Calls delegate (upsert query dataUpdate (JsObj createFields))).
Proof.
  intros Hin delegate. unfold upsertRecord.
  split; intros; now rewrite withDelegate_resolved.
Qed.

(** C4. On the allow-listed name [FileVersion] upsert reaches no delegate:
    the lookup under the lower-cased name gives [undefined] and the call of
    [upsert] raises a [TypeError], whatever the filter and the payloads; no
    payload is passed on, and called twice the helper fails twice and
    neither creates nor updates a record. *)
Theorem upsertRecord_FileVersion (prisma : ClientId)
        (query dataUpdate : JsValue) (dataCreate : option JsValue)
        (db : Store) :
  let failure :=
    TypeError "Cannot read properties of undefined (reading 'upsert')" in
  In "FileVersion" VALID_MODELS /\
  upsertRecord prisma "FileVersion" query dataUpdate dataCreate
  = Throws failure /\
  reached (upsertRecord prisma "FileVersion" query dataUpdate dataCreate)
  = None /\
  exists run,
    await (upsertRecord prisma "FileVersion" query dataUpdate dataCreate)
    = Some run /\
    run db = (Rejected failure, db) /\
    run (snd (run db)) = (Rejected failure, db).
Proof.
  intros failure. split; [simpl; tauto|].
  split; [reflexivity|]. split; [reflexivity|].
  eexists. split; [reflexivity|]. split; reflexivity.
Qed.

(** ** Transactions *)

(** C7. A unit of work run through the transaction helper settles as a
    whole: when it fails, and so when one of its operations fails after
    others succeeded, the store is the one before the transaction and the
    caller gets that operation's error; when it succeeds, its effects are
    kept and its result is returned. *)
Theorem transaction_all_or_nothing (prisma : ClientId) (T : Type)
        (callback : Async T) (db : Store) :
  let run := awaitTransaction (executeTransaction prisma callback) in
  (forall e db', callback db = (Rejected e, db') -> run db = (Rejected e, db))
  /\
  (forall v db', callback db = (Fulfilled v, db') -> run db = (Fulfilled v, db'))
  /\
  (forall (A : Type) (first : Async A) (next : A -> Async T) a db1 e db2,
      callback = andThen first next ->
      first db = (Fulfilled a, db1) ->
      next a db1 = (Rejected e, db2) ->
      run db = (Rejected e, db)).
Proof.
  intros run. unfold run, awaitTransaction, executeTransaction, orm_transaction.
  simpl. split; [|split].
  - intros e db' H. now rewrite H.
  - intros v db' H. now rewrite H.
  - intros A first next a db1 e db2 Hcb Hfirst Hnext.
    subst callback. unfold andThen. now rewrite Hfirst, Hnext.
Qed.

Lemma transaction_all_or_nothing_witness :
  createThenUpdateMissing []
  = (Rejected NotFoundError, [(User, [("name", JsStr "Ann")])]) /\
  awaitTransaction (executeTransaction 0 createThenUpdateMissing) []
  = (Rejected NotFoundError, []).
Proof.
  split; [reflexivity|].
  exact (proj2 (proj2
           (transaction_all_or_nothing 0 JsValue createThenUpdateMissing []))
           JsValue (orm_create User nameAnn)
           (fun _ => orm_update User keyOne nameJohn)
           (JsObj [("name", JsStr "Ann")]) [(User, [("name", JsStr "Ann")])]
           NotFoundError [(User, [("name", JsStr "Ann")])]
           eq_refl eq_refl eq_refl).
Defined.

(** ** Raw queries *)

(** C5. The raw-query helper validates nothing: whatever the query text and
    the parameters, it throws no error and hands both, unchanged, to
    [$queryRawUnsafe] of the module's client. *)
Theorem executeRawQuery_forwards (prisma : ClientId) (query : string)
        (params : list JsValue) :
  executeRawQuery prisma query params
  = CallsQueryRawUnsafe prisma query params /\
  (forall e, executeRawQuery prisma query params <> Throws e) /\
  reached (executeRawQuery prisma query params) = Some prisma.
Proof.
  split; [reflexivity|]. split; [|reflexivity].
  intros e. discriminate.
Qed.

(** A query text that is no model name is rejected by the table-name-taking
    helpers and forwarded by the raw-query helper. *)
Example executeRawQuery_on_invalid_name :
  countRecords 0 "SELECT 1" None
  = Throws (Error (invalidModelMessage "SELECT 1")) /\
  executeRawQuery 0 "SELECT 1" [JsNum 7; JsStr "a"]
  = CallsQueryRawUnsafe 0 "SELECT 1" [JsNum 7; JsStr "a"].
Proof. split; reflexivity. Qed.

(** ** The singleton *)

(** An awaited disconnect releases the singleton once: when it is set,
    [$disconnect] is called on it exactly once and the binding becomes
    [null]; when it is [null] already, nothing happens.  So a second awaited
    disconnect, and a second shutdown handler run after the first has
    finished, changes nothing. *)
Theorem disconnect_idempotent (st : Process) :
  (forall c, prismaInstance st = Some c ->
             disconnectPrismaClient st
             = {| prismaInstance := None;
                  constructed := constructed st;
                  disconnectCalls := disconnectCalls st ++ [c] |}) /\
  (prismaInstance st = None -> disconnectPrismaClient st = st) /\
  disconnectPrismaClient (disconnectPrismaClient st)
  = disconnectPrismaClient st /\
  (forall first second,
      fst (onSignal second (fst (onSignal first st)))
      = fst (onSignal first st)).
Proof.
  destruct st as [[c|] clients calls]; simpl.
  - split; [intros c' H; inversion H; reflexivity|].
    split; [discriminate|]. split; [reflexivity|].
    intros [] []; reflexivity.
  - split; [discriminate|]. split; [reflexivity|]. split; [reflexivity|].
    intros [] []; reflexivity.
Qed.

Lemma disconnect_idempotent_witness :
  let st := {| prismaInstance := Some 0;
               constructed := [optionsOf None];
               disconnectCalls := [] |} in
  disconnectPrismaClient st
  = {| prismaInstance := None;
       constructed := [optionsOf None];
       disconnectCalls := [0] |} /\
  disconnectPrismaClient (disconnectPrismaClient st) = disconnectPrismaClient st.
Proof.
  intros st. split.
  - exact (proj1 (disconnect_idempotent st) 0 eq_refl).
  - exact (proj1 (proj2 (proj2 (disconnect_idempotent st)))).
Defined.

(** Two disconnects that overlap, the second entered while the first is
    suspended at its [await], are not the composition above: each finds the
    singleton set and calls [$disconnect]. *)
Remark disconnect_overlapping (c : ClientId) (clients : list ClientOptions)
       (calls : list ClientId) :
  let st := {| prismaInstance := Some c; constructed := clients;
               disconnectCalls := calls |} in
  disconnect_resume
    (disconnect_resume (snd (disconnect_begin (snd (disconnect_begin st)))))
  = {| prismaInstance := None; constructed := clients;
       disconnectCalls := calls ++ [c; c] |}.
Proof.
  simpl. unfold disconnect_resume. simpl. now rewrite <- app_assoc.
Qed.

(** C6. Disconnect called twice while the singleton is set, the second call
    entered before the first has resumed from its [await] (as when two
    shutdown signals arrive in a row: the handlers are not awaited), calls
    [$disconnect] twice on the same client: the binding is set to [null]
    only after the [await], so both calls pass the test.  The final state
    has the singleton [null] as after one call, and one [$disconnect] more
    than after one call. *)
Theorem disconnect_twice_unawaited (c : ClientId)
        (clients : list ClientOptions) (calls : list ClientId) :
  let st := {| prismaInstance := Some c; constructed := clients;
               disconnectCalls := calls |} in
  let twice := resumeAll 2 (beginAll 2 st) in
  let once := disconnectPrismaClient st in
  fst (disconnect_begin (snd (disconnect_begin st))) = true /\
  disconnectCalls once = calls ++ [c] /\
  disconnectCalls twice = calls ++ [c; c] /\
  prismaInstance twice = None /\
  twice <> once.
Proof.
  intros st twice once.
  assert (Htwice : disconnectCalls twice = calls ++ [c; c]).
  { unfold twice, resumeAll, beginAll. simpl. now rewrite <- app_assoc. }
  split; [reflexivity|]. split; [reflexivity|]. split; [exact Htwice|].
  split; [reflexivity|].
  intros Heq. apply (f_equal (fun s => length (disconnectCalls s))) in Heq.
  rewrite Htwice in Heq. unfold once in Heq. simpl in Heq.
  rewrite !length_app in Heq. simpl in Heq. lia.
Qed.

Lemma callMethod_dispatchesOn (prisma : ClientId) (key : string)
      (op : DelegateOp) :
  dispatchesOn prisma (callMethod (clientProperty prisma key) op).
Proof.
  unfold dispatchesOn, clientProperty.
  destruct (find _ schemaModels); simpl; [right | left]; reflexivity.
Qed.

Lemma withDelegate_dispatchesOn (prisma : ClientId) (tableName : string)
      (k : option Delegate -> Outcome) :
  (forall key, dispatchesOn prisma (k (clientProperty prisma key))) ->
  dispatchesOn prisma (withDelegate prisma tableName k).
Proof.
  intros Hk. unfold withDelegate, getDelegate.
  destruct (negb (isValidModel tableName)).
  - left. reflexivity.
  - apply Hk.
Qed.

Lemma helperOutcome_dispatchesOn (prisma : ClientId) (o : Outcome) :
  helperOutcome prisma o -> dispatchesOn prisma o.
Proof.
  intros H. destruct H;
    try (apply withDelegate_dispatchesOn; intros key;
         try apply callMethod_dispatchesOn).
  - destruct data; apply callMethod_dispatchesOn.
  - right. reflexivity.
Qed.

(** C10. The module constructs one client when it is initialised and binds
    it to [prisma]; every helper reaches that client or none.  After a
    disconnect has set the singleton to [null], the constructor function
    makes a fresh client, different from [prisma], and the helpers, the
    transaction helper among them, still reach [prisma] and never the fresh
    client. *)
Theorem helpers_keep_first_client (before : list ClientOptions)
        (calls : list ClientId) (config : option PrismaConfig) :
  let '(prisma, st0) := moduleInit before calls in
  let st1 := disconnectPrismaClient st0 in
  let '(fresh, st2) := getPrismaClient config st1 in
  (constructed st0 = before ++ [optionsOf None] /\
   prismaInstance st0 = Some prisma /\
   forall cfg, getPrismaClient cfg st0 = (prisma, st0)) /\
  (prismaInstance st1 = None /\ disconnectCalls st1 = calls ++ [prisma]) /\
  (fresh <> prisma /\
   prismaInstance st2 = Some fresh /\
   constructed st2 = constructed st0 ++ [optionsOf config]) /\
  (forall o, helperOutcome prisma o ->
             dispatchesOn prisma o /\ reached o <> Some fresh) /\
  (forall (T : Type) (callback : Async T),
      tx_client (executeTransaction prisma callback) = prisma /\
      tx_client (executeTransaction prisma callback) <> fresh).
Proof.
  unfold moduleInit, getPrismaClient. simpl.
  assert (Hfresh : length (before ++ [optionsOf None]) <> length before).
  { rewrite length_app. simpl. lia. }
  split; [repeat split|]. split; [split; reflexivity|].
  split; [repeat split; exact Hfresh|]. split.
  - intros o Ho. pose proof (helperOutcome_dispatchesOn _ _ Ho) as Hd.
    split; [exact Hd|]. intros Heq.
    destruct Hd as [Hnone|Hsome]; rewrite Heq in *.
    + discriminate Hnone.
    + inversion Hsome as [Hlen]. now apply Hfresh.
  - intros T callback. split; [reflexivity|].
    simpl. intros Heq. apply Hfresh. now symmetry.
Qed.

Lemma helpers_keep_first_client_witness :
  fst (moduleInit [] []) = 0 /\
  fst (getPrismaClient None (disconnectPrismaClient (snd (moduleInit [] [])))) = 1 /\
  reached (updateRecord 0 "User" keyOne nameAnn) = Some 0 /\
  reached (updateRecord 0 "User" keyOne nameAnn) <> Some 1.
Proof.
  split; [reflexivity|]. split; [reflexivity|]. split; [reflexivity|].
  exact (proj2 (proj1 (proj2 (proj2 (proj2
           (helpers_keep_first_client [] [] None))))
           _ (by_updateRecord 0 "User" keyOne nameAnn))).
Defined.

(** * Further properties *)

(** ** Dispatch by table name *)

Lemma getDelegate_cases (prisma : ClientId) (t : string) :
  (~ In t VALID_MODELS /\
   getDelegate prisma t = Throw (Error (invalidModelMessage t))) \/
  (t = "FileVersion" /\ getDelegate prisma t = Normal None) \/
  (exists m, In m resolvedModels /\ modelName m = t /\
             getDelegate prisma t
             = Normal (Some {| d_client := prisma; d_model := m |})).
Proof.
  destruct (isValidModel t) eqn:E.
  - apply isValidModel_In in E. simpl in E.
    destruct E as [<-|[<-|[<-|[<-|[<-|[]]]]]].
    + right. right. exists User. simpl. tauto.
    + right. right. exists Folder. simpl. tauto.
    + right. right. exists File. simpl. tauto.
    + right. left. split; reflexivity.
    + right. right. exists Share. simpl. tauto.
  - left. assert (Hnot : ~ In t VALID_MODELS).
    { intros Hin. apply isValidModel_In in Hin. congruence. }
    split; [exact Hnot | now apply getDelegate_invalid].
Qed.

(** Each table-name-taking helper looks the delegate up and calls one
    method of it. *)
Lemma tableHelper_request (prisma : ClientId) (t : string) (o : Outcome) :
  tableHelperOutcome prisma t o ->
  exists op, o = withDelegate prisma t (fun delegate => callMethod delegate op).
Proof.
  intros H. destruct H; try (eexists; reflexivity).
  unfold insertRecord. destruct data; eexists; reflexivity.
Qed.

(** Whatever table-name-taking helper is called with the table name [t],
    exactly one of three things happens: [t] is outside the allow-list and
    the helper throws the invalid-name [Error]; [t] is [FileVersion] and the
    helper throws the [TypeError] of a method call on [undefined]; or [t]
    names one of the other four models and the helper makes one request, to
    the delegate of the model named [t] on the module's client. *)
Theorem table_helper_dispatch (prisma : ClientId) (t : string) (o : Outcome) :
  tableHelperOutcome prisma t o ->
  (~ In t VALID_MODELS /\ o = Throws (Error (invalidModelMessage t))) \/
  (t = "FileVersion" /\ exists op, o = Throws (undefinedDelegateError op)) \/
  (exists m op,
      In m resolvedModels /\ modelName m = t /\
      o = Calls {| d_client := prisma; d_model := m |} op).
Proof.
  intros H. destruct (tableHelper_request _ _ _ H) as [op ->].
  unfold withDelegate.
  destruct (getDelegate_cases prisma t)
    as [[Hnot ->]|[[-> ->]|(m & Hin & Hname & ->)]].
  - left. split; [exact Hnot | reflexivity].
  - right. left. split; [reflexivity|]. exists op. reflexivity.
  - right. right. exists m, op. repeat split; assumption.
Qed.

Lemma table_helper_dispatch_witness :
  (exists op, deleteRecord 0 "FileVersion" keyOne
              = Throws (undefinedDelegateError op)) /\
  (exists m op, In m resolvedModels /\ modelName m = "Share" /\
                countRecords 0 "Share" None
                = Calls {| d_client := 0; d_model := m |} op).
Proof.
  split.
  - destruct (table_helper_dispatch 0 "FileVersion" _
                (on_deleteRecord 0 "FileVersion" keyOne))
      as [[Hnot _]|[[_ H]|(m & op & Hin & Hname & _)]].
    + exfalso. apply Hnot. simpl. tauto.
    + exact H.
    + exfalso. simpl in Hin.
      destruct Hin as [<-|[<-|[<-|[<-|[]]]]]; discriminate Hname.
  - destruct (table_helper_dispatch 0 "Share" _
                (on_countRecords 0 "Share" None))
      as [[Hnot _]|[[Habs _]|H]].
    + exfalso. apply Hnot. simpl. tauto.
    + discriminate Habs.
    + exact H.
Defined.

(** A request made by a table-name-taking helper never goes to the delegate
    of another table, to another client or to the raw-query primitive. *)
Theorem table_helper_targets_named_table (prisma : ClientId) (t : string)
        (o : Outcome) :
  tableHelperOutcome prisma t o ->
  (forall d op, o = Calls d op ->
                d_client d = prisma /\ modelName (d_model d) = t) /\
  (forall c query params, o <> CallsQueryRawUnsafe c query params).
Proof.
  intros H.
  destruct (table_helper_dispatch _ _ _ H)
    as [[_ ->]|[[_ [op0 ->]]|(m & op0 & _ & Hname & ->)]].
  - split; [intros d op Heq | intros c q ps Heq]; discriminate Heq.
  - split; [intros d op Heq | intros c q ps Heq]; discriminate Heq.
  - split.
    + intros d op Heq. inversion Heq. subst d. split; [reflexivity | exact Hname].
    + intros c q ps Heq. discriminate Heq.
Qed.

Lemma table_helper_targets_named_table_witness :
  d_client {| d_client := 3; d_model := Folder |} = 3 /\
  modelName (d_model {| d_client := 3; d_model := Folder |}) = "Folder".
Proof.
  exact (proj1 (table_helper_targets_named_table 3 "Folder" _
                  (on_findRecord 3 "Folder" keyOne None))
               {| d_client := 3; d_model := Folder |}
               (findUnique keyOne None) eq_refl).
Defined.

(** ** Find-one, delete-one, count, update-many and delete-many *)

(** On the four models whose delegate the lookup finds, find-one,
    delete-one, count, update-many and delete-many each make the same-named
    request of the delegate with their arguments unchanged; the projection of
    find-one and the filter of count are part of the request when they are
    given as records and absent when they are omitted. *)
Theorem plain_helpers_forward (prisma : ClientId) (m : Model) :
  In m resolvedModels ->
  let t := modelName m in
  let delegate := {| d_client := prisma; d_model := m |} in
  (forall query,
      findRecord prisma t query None = Calls delegate (findUnique query None)) /\
  (forall query fields,
      findRecord prisma t query (Some (JsObj fields))
      = Calls delegate (findUnique query (Some (JsObj fields)))) /\
  (forall query, deleteRecord prisma t query = Calls delegate (delete query)) /\
  countRecords prisma t None = Calls delegate (count None) /\
  (forall fields,
      countRecords prisma t (Some (JsObj fields))
      = Calls delegate (count (Some (JsObj fields)))) /\
  (forall filter data,
      updateManyRecords prisma t filter data
      = Calls delegate (updateMany filter data)) /\
  (forall filter,
      deleteManyRecords prisma t filter = Calls delegate (deleteMany filter)).
Proof.
  intros Hin t delegate.
  unfold findRecord, deleteRecord, countRecords, updateManyRecords,
    deleteManyRecords, t.
  repeat split; intros; now rewrite withDelegate_resolved.
Qed.

Lemma plain_helpers_forward_witness :
  In File resolvedModels /\
  deleteManyRecords 0 "File" (JsObj [("isDeleted", JsBool true)])
  = Calls {| d_client := 0; d_model := File |}
          (deleteMany (JsObj [("isDeleted", JsBool true)])).
Proof.
  assert (Hin : In File resolvedModels) by (simpl; tauto).
  split; [exact Hin|].
  exact (proj2 (proj2 (proj2 (proj2 (proj2 (proj2
           (plain_helpers_forward 0 File Hin))))))
           (JsObj [("isDeleted", JsBool true)])).
Defined.

(** ** Optional arguments *)

Lemma spreadIf_idempotent (x : option JsValue) :
  spreadIf (spreadIf x) = spreadIf x.
Proof.
  destruct x as [v|]; [|reflexivity].
  simpl. destruct (truthy v) eqn:E; simpl; [now rewrite E | reflexivity].
Qed.

Lemma orElse_spreadIf (a : option JsValue) (b : JsValue) :
  orElse (spreadIf a) b = orElse a b.
Proof.
  destruct a as [v|]; [|reflexivity].
  simpl. destruct (truthy v) eqn:E; simpl; [now rewrite E | reflexivity].
Qed.

(** An optional argument that is falsy ([null], [false], [0], the empty
    string) is treated as omitted: the projection of find-one, the filter of
    count, the create-fields of upsert, and the [where], [select] and
    [orderBy] of the options of find-first and find-many.  So count with the
    filter [null] counts the whole table. *)
Theorem falsy_optional_is_omitted (prisma : ClientId) (t : string)
        (v : JsValue) :
  truthy v = false ->
  (forall query, findRecord prisma t query (Some v)
                 = findRecord prisma t query None) /\
  countRecords prisma t (Some v) = countRecords prisma t None /\
  (forall query dataUpdate,
      upsertRecord prisma t query dataUpdate (Some v)
      = upsertRecord prisma t query dataUpdate None) /\
  (forall o, findManyRecords prisma t (Some o)
             = findManyRecords prisma t (Some (dropFalsy o))) /\
  (forall o, findFirstRecord prisma t (Some o)
             = findFirstRecord prisma t (Some (dropFalsy o))).
Proof.
  intros Hv.
  unfold findRecord, countRecords, upsertRecord, findManyRecords,
    findFirstRecord, calculatedSkip, calculatedTake.
  simpl. rewrite Hv. repeat split; intros;
    now rewrite ?spreadIf_idempotent.
Qed.

Lemma falsy_optional_is_omitted_witness :
  countRecords 0 "User" (Some JsNull) = countRecords 0 "User" None /\
  upsertRecord 0 "User" keyOne nameAnn (Some (JsNum 0))
  = upsertRecord 0 "User" keyOne nameAnn None.
Proof.
  split.
  - exact (proj1 (proj2 (falsy_optional_is_omitted 0 "User" JsNull eq_refl))).
  - exact (proj1 (proj2 (proj2
             (falsy_optional_is_omitted 0 "User" (JsNum 0) eq_refl)))
             keyOne nameAnn).
Defined.

(** ** Pagination, the remaining cases *)

(** When [perPage] is omitted or falsy (zero or [NaN]), [page] has no
    effect: find-many makes the request of the same call with the raw [skip]
    and [take] alone, both forwarded as they are, zero included. *)
Theorem findMany_without_perPage (prisma : ClientId) (t : string)
        (o : FindManyOptions) :
  truthyNum (o_perPage o) = false ->
  calculatedSkip o = o_skip o /\
  calculatedTake o = o_take o /\
  findManyRecords prisma t (Some o)
  = findManyRecords prisma t (Some (withSkipTake o (o_skip o) (o_take o))).
Proof.
  intros Hpp.
  assert (Hs : calculatedSkip o = o_skip o).
  { unfold calculatedSkip. destruct (o_page o) as [p|]; [|reflexivity].
    destruct (o_perPage o) as [pp|]; [|reflexivity].
    rewrite Hpp. now rewrite andb_false_r. }
  assert (Ht : calculatedTake o = o_take o).
  { unfold calculatedTake. now rewrite Hpp. }
  split; [exact Hs|]. split; [exact Ht|].
  rewrite !findManyRecords_request. now rewrite Hs, Ht.
Qed.

Lemma findMany_without_perPage_witness :
  findManyRecords 0 "File"
    (Some {| o_where := None; o_select := None; o_orderBy := None;
             o_skip := Some 0%float; o_take := Some 0%float;
             o_page := Some 3%float; o_perPage := None |})
  = Calls {| d_client := 0; d_model := File |}
          (findMany None None None (Some 0%float) (Some 0%float)).
Proof.
  exact (proj2 (proj2 (findMany_without_perPage 0 "File"
           {| o_where := None; o_select := None; o_orderBy := None;
              o_skip := Some 0%float; o_take := Some 0%float;
              o_page := Some 3%float; o_perPage := None |} eq_refl))).
Defined.

(** When [perPage] is supplied and truthy (neither zero nor [NaN]) while
    [page] is omitted or falsy, [perPage] replaces the raw [take] and the raw
    [skip] is kept. *)
Theorem findMany_perPage_without_page (prisma : ClientId) (t : string)
        (o : FindManyOptions) (perPage : float) :
  o_perPage o = Some perPage -> truthyNum (Some perPage) = true ->
  truthyNum (o_page o) = false ->
  calculatedSkip o = o_skip o /\
  calculatedTake o = Some perPage /\
  findManyRecords prisma t (Some o)
  = findManyRecords prisma t (Some (withSkipTake o (o_skip o) (Some perPage))).
Proof.
  intros Hpp Hnz Hp.
  assert (Hs : calculatedSkip o = o_skip o).
  { unfold calculatedSkip. destruct (o_page o) as [p|]; [|reflexivity].
    rewrite Hpp, Hp. reflexivity. }
  assert (Ht : calculatedTake o = Some perPage).
  { unfold calculatedTake. now rewrite Hpp, Hnz. }
  split; [exact Hs|]. split; [exact Ht|].
  rewrite !findManyRecords_request. now rewrite Hs, Ht.
Qed.

Lemma findMany_perPage_without_page_witness :
  findManyRecords 0 "File"
    (Some {| o_where := None; o_select := None; o_orderBy := None;
             o_skip := Some 7%float; o_take := Some 2%float;
             o_page := None; o_perPage := Some 25%float |})
  = Calls {| d_client := 0; d_model := File |}
          (findMany None None None (Some 7%float) (Some 25%float)).
Proof.
  exact (proj2 (proj2 (findMany_perPage_without_page 0 "File"
           {| o_where := None; o_select := None; o_orderBy := None;
              o_skip := Some 7%float; o_take := Some 2%float;
              o_page := None; o_perPage := Some 25%float |} 25%float
           eq_refl eq_refl eq_refl))).
Defined.

(** ** The life cycle of the singleton *)

(** [getPrismaClient] constructs a client only when the singleton is
    [null], with the options of that call; once the singleton is set, every
    call returns that same client, constructs nothing and ignores its
    configuration. *)
Theorem getPrismaClient_singleton (config : option PrismaConfig)
        (st : Process) :
  let '(c, st1) := getPrismaClient config st in
  prismaInstance st1 = Some c /\
  (forall later, getPrismaClient later st1 = (c, st1)) /\
  (forall c0, prismaInstance st = Some c0 -> c = c0 /\ st1 = st) /\
  (prismaInstance st = None ->
   c = length (constructed st) /\
   constructed st1 = constructed st ++ [optionsOf config] /\
   disconnectCalls st1 = disconnectCalls st).
Proof.
  unfold getPrismaClient. destruct st as [[c0|] clients calls]; simpl.
  - split; [reflexivity|]. split; [reflexivity|]. split; [|discriminate].
    intros c' H. inversion H. split; reflexivity.
  - split; [reflexivity|]. split; [reflexivity|]. split; [discriminate|].
    intros _. repeat split.
Qed.

Lemma getPrismaClient_singleton_witness :
  getPrismaClient (Some {| log := Some []; errorFormat := Some Pretty |})
    {| prismaInstance := Some 4; constructed := []; disconnectCalls := [] |}
  = (4, {| prismaInstance := Some 4; constructed := []; disconnectCalls := [] |}).
Proof.
  pose proof (getPrismaClient_singleton None
                {| prismaInstance := Some 4; constructed := [];
                   disconnectCalls := [] |}) as H.
  simpl in H.
  exact (proj1 (proj2 H) (Some {| log := Some []; errorFormat := Some Pretty |})).
Defined.

(** Every shutdown handler leaves the singleton [null], calls [$disconnect]
    on the singleton if it was set and on nothing otherwise, and constructs
    no client; the [SIGINT] and [SIGTERM] handlers then exit with code 0,
    the [beforeExit] handler does not exit. *)
Theorem shutdown_handler_releases (sig : Signal) (st : Process) :
  let '(st', code) := onSignal sig st in
  prismaInstance st' = None /\
  constructed st' = constructed st /\
  disconnectCalls st'
  = disconnectCalls st
      ++ match prismaInstance st with Some c => [c] | None => [] end /\
  (sig = beforeExit -> code = None) /\
  (sig <> beforeExit -> code = Some 0%Z).
Proof.
  destruct st as [[c|] clients calls]; destruct sig; simpl;
    rewrite ?app_nil_r; repeat split; congruence.
Qed.

Lemma shutdown_handler_releases_witness :
  snd (onSignal SIGTERM
         {| prismaInstance := Some 0; constructed := [optionsOf None];
            disconnectCalls := [] |}) = Some 0%Z.
Proof.
  pose proof (shutdown_handler_releases SIGTERM
                {| prismaInstance := Some 0; constructed := [optionsOf None];
                   disconnectCalls := [] |}) as H.
  simpl in H. simpl.
  refine (proj2 (proj2 (proj2 (proj2 H))) _). discriminate.
Defined.

Lemma consistent_getPrismaClient (config : option PrismaConfig)
      (st : Process) :
  consistent st -> consistent (snd (getPrismaClient config st)).
Proof.
  intros (Hnodup & Hlog & Hinst). unfold getPrismaClient.
  destruct (prismaInstance st) as [c|] eqn:E; simpl.
  - unfold consistent. rewrite E. auto.
  - unfold consistent. simpl. rewrite length_app. simpl.
    split; [exact Hnodup|]. split.
    + intros c Hin. apply Hlog in Hin. lia.
    + intros c Hc. inversion Hc. subst c. split; [lia|].
      intros Hin. apply Hlog in Hin. lia.
Qed.

Lemma consistent_disconnectPrismaClient (st : Process) :
  consistent st -> consistent (disconnectPrismaClient st).
Proof.
  intros (Hnodup & Hlog & Hinst).
  unfold disconnectPrismaClient, disconnect_begin.
  destruct (prismaInstance st) as [c|] eqn:E; simpl.
  - destruct (Hinst c eq_refl) as [Hlt Hfresh].
    unfold consistent. simpl. split; [|split].
    + apply NoDup_app; [exact Hnodup | repeat constructor; simpl; tauto |].
      intros x Hx [<-|[]]. contradiction.
    + intros x Hx. apply in_app_or in Hx.
      destruct Hx as [Hx|[<-|[]]]; [now apply Hlog | exact Hlt].
    + discriminate.
  - unfold consistent. rewrite E. auto.
Qed.

Lemma consistent_lifecycleRun (calls : list LifecycleCall) (st : Process) :
  consistent st -> consistent (lifecycleRun calls st).
Proof.
  revert st. induction calls as [|call calls IH]; intros st Hst.
  - exact Hst.
  - simpl. apply IH. destruct call; simpl.
    + now apply consistent_getPrismaClient.
    + now apply consistent_disconnectPrismaClient.
Qed.

Lemma consistent_moduleInit (before : list ClientOptions) :
  consistent (snd (moduleInit before [])).
Proof.
  unfold moduleInit. apply consistent_getPrismaClient.
  unfold consistent. simpl. split; [constructor|].
  split; [intros c []|discriminate].
Qed.

(** Over any sequence of awaited [getPrismaClient] and
    [disconnectPrismaClient] calls, [$disconnect] is called on constructed
    clients only and never twice on the same client, and [getPrismaClient]
    never returns a client that has been disconnected. *)
Theorem lifecycle_never_reuses_disconnected (calls : list LifecycleCall)
        (st : Process) (config : option PrismaConfig) :
  consistent st ->
  let st' := lifecycleRun calls st in
  NoDup (disconnectCalls st') /\
  (forall c, In c (disconnectCalls st') -> c < length (constructed st')) /\
  ~ In (fst (getPrismaClient config st')) (disconnectCalls st').
Proof.
  intros Hst st'.
  destruct (consistent_lifecycleRun calls st Hst) as (Hnodup & Hlog & Hinst).
  fold st' in Hnodup, Hlog, Hinst.
  split; [exact Hnodup|]. split; [exact Hlog|].
  unfold getPrismaClient.
  destruct (prismaInstance st') as [c|] eqn:E; simpl.
  - now destruct (Hinst c eq_refl).
  - intros Hin. apply Hlog in Hin. lia.
Qed.

Lemma lifecycle_never_reuses_disconnected_witness :
  let st' := lifecycleRun [Disconnect; GetClient None; Disconnect; Disconnect]
               (snd (moduleInit [] [])) in
  disconnectCalls st' = [0; 1] /\
  fst (getPrismaClient None st') = 2 /\
  NoDup (disconnectCalls st').
Proof.
  intros st'. split; [reflexivity|]. split; [reflexivity|].
  refine (proj1 (lifecycle_never_reuses_disconnected
                   [Disconnect; GetClient None; Disconnect; Disconnect]
                   (snd (moduleInit [] [])) None _)).
  unfold consistent. simpl. split; [constructor|]. split.
  - intros c [].
  - intros c H. inversion H. split; [lia | tauto].
Defined.

Lemma disconnect_begin_set (st : Process) (c : ClientId) :
  prismaInstance st = Some c ->
  snd (disconnect_begin st)
  = {| prismaInstance := Some c;
       constructed := constructed st;
       disconnectCalls := disconnectCalls st ++ [c] |}.
Proof. intros Hc. unfold disconnect_begin. now rewrite Hc. Qed.

Lemma repeat_snoc (c : ClientId) (k : nat) :
  repeat c k ++ [c] = repeat c (S k).
Proof.
  induction k as [|k IH]; [reflexivity|]. simpl. now rewrite IH.
Qed.

Lemma beginAll_log (k : nat) (st : Process) (c : ClientId) :
  prismaInstance st = Some c ->
  prismaInstance (beginAll k st) = Some c /\
  constructed (beginAll k st) = constructed st /\
  disconnectCalls (beginAll k st) = disconnectCalls st ++ repeat c k.
Proof.
  intros Hc. induction k as [|k (Hi & Hcons & Hlog)].
  - simpl. now rewrite app_nil_r.
  - change (beginAll (S k) st) with (snd (disconnect_begin (beginAll k st))).
    rewrite (disconnect_begin_set _ _ Hi). simpl.
    split; [reflexivity|]. split; [exact Hcons|].
    now rewrite Hlog, <- app_assoc, repeat_snoc.
Qed.

(** The guard of [disconnectPrismaClient] does not hold concurrent calls
    back: [k] calls entered before any of them resumes from its [await] call
    [$disconnect] [k] times on the same client; once they have resumed the
    singleton is [null]. *)
Theorem disconnect_overlapping_calls (k : nat) (st : Process) (c : ClientId) :
  prismaInstance st = Some c -> 1 <= k ->
  resumeAll k (beginAll k st)
  = {| prismaInstance := None;
       constructed := constructed st;
       disconnectCalls := disconnectCalls st ++ repeat c k |}.
Proof.
  intros Hc Hk. destruct (beginAll_log k st c Hc) as (_ & Hcons & Hlog).
  assert (Hres : forall n s, 1 <= n ->
            resumeAll n s = {| prismaInstance := None;
                               constructed := constructed s;
                               disconnectCalls := disconnectCalls s |}).
  { intros n s Hn. induction n as [|n IHn]; [lia|].
    destruct n as [|n]; [reflexivity|].
    unfold resumeAll in *. simpl in *. rewrite IHn by lia. reflexivity. }
  rewrite Hres by exact Hk. now rewrite Hcons, Hlog.
Qed.

Lemma disconnect_overlapping_calls_witness :
  disconnectCalls
    (resumeAll 3 (beginAll 3 {| prismaInstance := Some 0;
                                constructed := [optionsOf None];
                                disconnectCalls := [] |}))
  = [0; 0; 0].
Proof.
  refine (f_equal disconnectCalls
            (disconnect_overlapping_calls 3
               {| prismaInstance := Some 0; constructed := [optionsOf None];
                  disconnectCalls := [] |} 0 eq_refl _)).
  lia.
Defined.

(** ** Insert, whatever the table name *)

(** The skip-duplicates flag only matters for a list: with data that is not
    an array insert behaves the same whatever the flag, and with an array an
    omitted flag is the flag [true]; an empty array is still a batch
    insert. *)
Theorem insertRecord_flag (prisma : ClientId) (t : string) :
  (forall data flag flag',
      (forall items, data <> JsArr items) ->
      insertRecord prisma t data flag = insertRecord prisma t data flag') /\
  (forall items,
      insertRecord prisma t (JsArr items) None
      = insertRecord prisma t (JsArr items) (Some true)) /\
  insertRecord prisma t (JsArr []) None
  = withDelegate prisma t (fun delegate =>
      callMethod delegate (createMany [] true)).
Proof.
  split; [|split; reflexivity].
  intros data flag flag' Hsingle. unfold insertRecord.
  destruct data; try reflexivity.
  now contradiction (Hsingle items).
Qed.

Lemma insertRecord_flag_witness :
  insertRecord 0 "Folder" nameAnn (Some false)
  = insertRecord 0 "Folder" nameAnn None.
Proof.
  refine (proj1 (insertRecord_flag 0 "Folder") nameAnn (Some false) None _).
  intros items. discriminate.
Defined.
